(** * The refresh endpoint of the chess dashboard

    A shallow embedding of [api/refresh.js]: the serverless handler that
    relays a POST request to the workflow-dispatch endpoint of the
    repository's [update-dashboard.yml] workflow.

    The handler is an [async] function over three pieces of ambient
    state: the response object [res] it is handed, the process
    environment it reads the token from, and the network it calls through
    [fetch].  They are threaded through a small state-and-exception
    monad; [try]/[catch] is an operation of that monad. *)

From Stdlib Require Import ZArith String Ascii List.
From stdpp Require Import base strings gmap list.

Local Open Scope string_scope.
Local Open Scope Z_scope.

(** ** JavaScript values *)

(** The object literals the handler passes to [res.json] and to
    [JSON.stringify]: objects with string keys, strings and booleans. *)
#[warnings="-register-all"]
Inductive json : Type :=
  | JBool (b : bool)
  | JString (s : string)
  | JObject (fields : list (string * json)).

(** What a [throw] or a rejected promise carries: the handler reads only
    [error.message]. *)
Record JsError : Type := { message : string }.

(** The result of evaluating a JavaScript expression: a value, or an
    abrupt completion with the thrown error. *)
Inductive completion (A : Type) : Type :=
  | Normal (a : A)
  | Throw (e : JsError).

Arguments Normal {A} a.
Arguments Throw {A} e.

(** [process.env.X]: a string, or [undefined] when the variable is unset. *)
Definition js_truthy (v : option string) : bool :=
  match v with
  | None => false
  | Some s => negb (String.eqb s "")
  end.

(** [`${v}`] for such a value. *)
Definition js_to_string (v : option string) : string :=
  match v with
  | None => "undefined"
  | Some s => s
  end.

(** ** [JSON.stringify] on the values above *)

Module JSON.

Definition dquote : ascii := "034"%char.
Definition backslash : ascii := "092"%char.

Definition hex_digit (n : N) : ascii :=
  ascii_of_N (if (n <? 10)%N then 48 + n else 87 + n).

(** QuoteJSONString: the two-character escapes, [\u00xx] for the other
    control characters, everything else as it is. *)
Definition escape_char (c : ascii) : string :=
  let n := N_of_ascii c in
  if Ascii.eqb c dquote then String backslash (String dquote "")
  else if Ascii.eqb c backslash then String backslash (String backslash "")
  else if (n =? 8)%N then String backslash "b"
  else if (n =? 9)%N then String backslash "t"
  else if (n =? 10)%N then String backslash "n"
  else if (n =? 12)%N then String backslash "f"
  else if (n =? 13)%N then String backslash "r"
  else if (n <? 32)%N then
    String backslash
      ("u00" ++ String (hex_digit (n / 16)) (String (hex_digit (n mod 16)) ""))
  else String c "".

Fixpoint escape (s : string) : string :=
  match s with
  | EmptyString => ""
  | String c rest => escape_char c ++ escape rest
  end.

Definition quote (s : string) : string :=
  String dquote (escape s ++ String dquote "").

Fixpoint stringify (j : json) : string :=
  match j with
  | JBool true => "true"
  | JBool false => "false"
  | JString s => quote s
  | JObject fields =>
      let fix members (fs : list (string * json)) : list string :=
        match fs with
        | [] => []
        | (k, v) :: rest => (quote k ++ ":" ++ stringify v) :: members rest
        end in
      "{" ++ String.concat "," (members fields) ++ "}"
  end.

End JSON.

(** ** The request, the response object and the network *)

(** The inbound request; the handler reads [req.method] only. *)
Record IncomingMessage : Type := {
  method : string;
  req_headers : gmap string string
}.

(** What has been written to the client. *)
Inductive payload : Type :=
  | EmptyBody              (* [res.end()] *)
  | JsonBody (j : json).   (* [res.json(j)] *)

(** The response object [res], with the fields the handler writes. *)
Record ServerResponse : Type := {
  headers : gmap string string;
  statusCode : Z;
  body : option payload     (* [None] until the response is sent *)
}.

(** The second argument of [fetch]. *)
Record RequestInit : Type := {
  init_method : string;
  init_headers : gmap string string;
  init_body : string
}.

(** One call of [fetch]. *)
Record FetchCall : Type := {
  call_url : string;
  call_init : RequestInit
}.

(** The upstream's answer: [response.status], and what [response.text()]
    settles to. *)
Record Response : Type := {
  status : Z;
  text : completion string
}.

(** Everything the handler reads or writes.  [network] is the outside
    world: given the calls issued so far, the latest last, it tells how
    the promise of the latest one settles. *)
Record State : Type := {
  process_env : gmap string string;
  network : list FetchCall -> completion Response;
  calls : list FetchCall;
  res : ServerResponse
}.

Definition with_res (r : ServerResponse) (st : State) : State :=
  {| process_env := process_env st; network := network st;
     calls := calls st; res := r |}.

Definition with_calls (cs : list FetchCall) (st : State) : State :=
  {| process_env := process_env st; network := network st;
     calls := cs; res := res st |}.

(** ** The monad *)

Definition M (A : Type) : Type := State -> completion A * State.

Definition ret {A} (a : A) : M A := fun st => (Normal a, st).

Definition bind {A B} (m : M A) (k : A -> M B) : M B :=
  fun st =>
    match m st with
    | (Normal a, st') => k a st'
    | (Throw e, st') => (Throw e, st')
    end.

(** [try { m } catch (error) { h error }] *)
Definition try_catch {A} (m : M A) (h : JsError -> M A) : M A :=
  fun st =>
    match m st with
    | (Normal a, st') => (Normal a, st')
    | (Throw e, st') => h e st'
    end.

(** [await p] where [p] has settled to [c]. *)
Definition await {A} (c : completion A) : M A := fun st => (c, st).

Declare Scope js_scope.
Delimit Scope js_scope with js.
Notation "x <- m ;; k" := (bind m (fun x => k))
  (at level 100, m at next level, right associativity) : js_scope.
Notation "m ;; k" := (bind m (fun _ => k))
  (at level 100, right associativity) : js_scope.
Local Open Scope js_scope.

Definition outcome {A} (m : M A) (st : State) : completion A := fst (m st).
Definition exec {A} (m : M A) (st : State) : State := snd (m st).

(** ** The host's operations *)

Definition res_setHeader (name value : string) : M unit :=
  fun st =>
    let r := res st in
    (Normal tt,
     with_res {| headers := <[name := value]> (headers r);
                 statusCode := statusCode r; body := body r |} st).

Definition res_status (code : Z) : M unit :=
  fun st =>
    let r := res st in
    (Normal tt,
     with_res {| headers := headers r; statusCode := code; body := body r |} st).

Definition res_end : M unit :=
  fun st =>
    let r := res st in
    (Normal tt,
     with_res {| headers := headers r; statusCode := statusCode r;
                 body := Some EmptyBody |} st).

Definition res_json (j : json) : M unit :=
  fun st =>
    let r := res st in
    (Normal tt,
     with_res {| headers := headers r; statusCode := statusCode r;
                 body := Some (JsonBody j) |} st).

Definition getenv (name : string) : M (option string) :=
  fun st => (Normal (process_env st !! name), st).

(** [fetch(url, init)]: the call goes out, then the promise settles as
    the network decides. *)
Definition fetch (url : string) (init : RequestInit) : M Response :=
  fun st =>
    let cs := (calls st ++ [{| call_url := url; call_init := init |}])%list in
    (network st cs, with_calls cs st).

(** ** The handler *)

Definition dispatch_url : string :=
  "https://api.github.com/repos/mclendaniel/chess-dashboard/actions/workflows/update-dashboard.yml/dispatches".

Definition dispatch_init (token : option string) : RequestInit :=
  {| init_method := "POST";
     init_headers :=
       {[ "Authorization" := "Bearer " ++ js_to_string token;
          "Accept" := "application/vnd.github.v3+json";
          "Content-Type" := "application/json" ]};
     init_body := JSON.stringify (JObject [("ref", JString "main")]) |}.

Definition dispatch_call (token : option string) : FetchCall :=
  {| call_url := dispatch_url; call_init := dispatch_init token |}.

Definition handler (req : IncomingMessage) : M unit :=
  res_setHeader "Access-Control-Allow-Origin" "*" ;;
  res_setHeader "Access-Control-Allow-Methods" "POST, OPTIONS" ;;
  res_setHeader "Access-Control-Allow-Headers" "Content-Type" ;;
  if String.eqb (method req) "OPTIONS" then
    res_status 200 ;; res_end
  else if negb (String.eqb (method req) "POST") then
    res_status 405 ;; res_json (JObject [("error", JString "Method not allowed")])
  else
    token <- getenv "GITHUB_TOKEN" ;;
    if negb (js_truthy token) then
      res_status 500 ;;
      res_json (JObject [("error", JString "GitHub token not configured")])
    else
      try_catch
        (response <- fetch dispatch_url (dispatch_init token) ;;
         if status response =? 204 then
           res_status 200 ;;
           res_json (JObject [("success", JBool true);
                              ("message", JString "Dashboard update triggered!")])
         else
           error <- await (text response) ;;
           res_status (status response) ;;
           res_json (JObject [("error", JString ("GitHub API error: " ++ error))]))
        (fun error =>
           res_status 500 ;;
           res_json (JObject [("error", JString (message error))])).

(** ** Vocabulary of the statements *)

(** The cross-origin headers set at the top of the handler. *)
Definition cors (h : gmap string string) : gmap string string :=
  <["Access-Control-Allow-Headers" := "Content-Type"]>
    (<["Access-Control-Allow-Methods" := "POST, OPTIONS"]>
       (<["Access-Control-Allow-Origin" := "*"]> h)).

(** The state after [res.status(code)] and [res.end()] or [res.json(j)]
    on a response that has the cross-origin headers. *)
Definition replied (code : Z) (p : payload) (st : State) : State :=
  with_res {| headers := cors (headers (res st)); statusCode := code;
              body := Some p |} st.

(** The calls one invocation adds: the dispatch when the method is POST
    and the token is truthy, nothing otherwise. *)
Definition dispatched (req : IncomingMessage) (st : State) : list FetchCall :=
  let token := process_env st !! "GITHUB_TOKEN" in
  if String.eqb (method req) "POST" && js_truthy token
  then [dispatch_call token] else [].

(** ** Inputs for the examples *)

Definition fresh_res : ServerResponse :=
  {| headers := ∅; statusCode := 200; body := None |}.

Definition request (m : string) : IncomingMessage :=
  {| method := m; req_headers := ∅ |}.

Definition upstream_answers (code : Z) (t : string)
  : list FetchCall -> completion Response :=
  fun _ => Normal {| status := code; text := Normal t |}.

Definition upstream_unreachable (msg : string)
  : list FetchCall -> completion Response :=
  fun _ => Throw {| message := msg |}.

Definition deployment (env : gmap string string)
    (net : list FetchCall -> completion Response) : State :=
  {| process_env := env; network := net; calls := []; res := fresh_res |}.

Definition in_quotes (s : string) : string :=
  String "034"%char (s ++ String "034"%char "").

Definition with_token (t : string) : gmap string string :=
  {[ "GITHUB_TOKEN" := t ]}.

Definition st_accepting : State :=
  deployment (with_token "ghp_secret") (upstream_answers 204 "").

Definition st_bad_ref : State :=
  deployment (with_token "ghp_secret") (upstream_answers 422 "bad ref").

Definition st_econnreset : State :=
  deployment (with_token "ghp_secret") (upstream_unreachable "ECONNRESET").

Definition st_unset : State := deployment ∅ (upstream_answers 204 "").

Definition st_empty_token : State :=
  deployment (with_token "") (upstream_answers 204 "").

(** ** Invocations in a row *)

(** The host calls the handler once per request, each time with a
    response object of its own; environment, network and the log of
    calls carry over. *)
Fixpoint serve (jobs : list (IncomingMessage * ServerResponse)) (st : State)
  : State :=
  match jobs with
  | [] => st
  | (req, r) :: rest => serve rest (exec (handler req) (with_res r st))
  end.

(** How many of the requests are POSTs. *)
Definition posts (jobs : list (IncomingMessage * ServerResponse)) : nat :=
  length (List.filter (fun job => String.eqb (method (fst job)) "POST") jobs).

(** An upstream that answers with [code] and whose body cannot be read. *)
Definition upstream_unreadable (code : Z) (msg : string)
  : list FetchCall -> completion Response :=
  fun _ => Normal {| status := code; text := Throw {| message := msg |} |}.

Definition st_unreadable : State :=
  deployment (with_token "ghp_secret")
    (upstream_unreadable 502 "terminated").

Definition success_body : payload :=
  JsonBody (JObject [("success", JBool true);
                     ("message", JString "Dashboard update triggered!")]).

(** The paths through the handler: the status and body it replies with
    and the calls it adds, by what decides the path. *)
Inductive reply (req : IncomingMessage) (st : State)
  : Z -> payload -> list FetchCall -> Prop :=
  | reply_preflight :
      method req = "OPTIONS" ->
      reply req st 200 EmptyBody []
  | reply_method :
      method req <> "OPTIONS" -> method req <> "POST" ->
      reply req st 405
        (JsonBody (JObject [("error", JString "Method not allowed")])) []
  | reply_config :
      method req = "POST" ->
      js_truthy (process_env st !! "GITHUB_TOKEN") = false ->
      reply req st 500
        (JsonBody (JObject [("error", JString "GitHub token not configured")])) []
  | reply_accepted T resp :
      method req = "POST" ->
      process_env st !! "GITHUB_TOKEN" = Some T -> T <> "" ->
      network st (calls st ++ [dispatch_call (Some T)])%list = Normal resp ->
      status resp = 204 ->
      reply req st 200 success_body [dispatch_call (Some T)]
  | reply_refused T resp t :
      method req = "POST" ->
      process_env st !! "GITHUB_TOKEN" = Some T -> T <> "" ->
      network st (calls st ++ [dispatch_call (Some T)])%list = Normal resp ->
      status resp <> 204 ->
      text resp = Normal t ->
      reply req st (status resp)
        (JsonBody (JObject [("error", JString ("GitHub API error: " ++ t))]))
        [dispatch_call (Some T)]
  | reply_unreadable T resp e :
      method req = "POST" ->
      process_env st !! "GITHUB_TOKEN" = Some T -> T <> "" ->
      network st (calls st ++ [dispatch_call (Some T)])%list = Normal resp ->
      status resp <> 204 ->
      text resp = Throw e ->
      reply req st 500
        (JsonBody (JObject [("error", JString (message e))]))
        [dispatch_call (Some T)]
  | reply_failed T e :
      method req = "POST" ->
      process_env st !! "GITHUB_TOKEN" = Some T -> T <> "" ->
      network st (calls st ++ [dispatch_call (Some T)])%list = Throw e ->
      reply req st 500
        (JsonBody (JObject [("error", JString (message e))]))
        [dispatch_call (Some T)].

(** ** [JSON.stringify] on small inputs *)

Example stringify_ref_main :
  JSON.stringify (JObject [("ref", JString "main")])
  = "{" ++ in_quotes "ref" ++ ":" ++ in_quotes "main" ++ "}".
Proof. reflexivity. Qed.

Example stringify_two_members :
  JSON.stringify (JObject [("success", JBool true); ("error", JString "")])
  = "{" ++ in_quotes "success" ++ ":true," ++ in_quotes "error" ++ ":"
        ++ in_quotes "" ++ "}".
Proof. reflexivity. Qed.

Example escape_control_chars :
  JSON.escape (String "010"%char (String "031"%char "a"))
  = String "092"%char "n" ++ String "092"%char "u001fa".
Proof. reflexivity. Qed.

(** ** Running the handler *)

Ltac step_js :=
  cbn [String.eqb Ascii.eqb Bool.eqb negb
       fst snd res headers statusCode body calls process_env network].

Ltac run_js :=
  unfold handler, bind, try_catch, await, fetch, getenv,
    res_setHeader, res_status, res_end, res_json, replied, cors,
    with_res, with_calls;
  step_js.

Lemma handler_options req st :
  method req = "OPTIONS" ->
  handler req st = (Normal tt, replied 200 EmptyBody st).
Proof. intros Hm. run_js. rewrite Hm. step_js. reflexivity. Qed.

Lemma handler_other_method req st :
  method req <> "OPTIONS" -> method req <> "POST" ->
  handler req st =
    (Normal tt,
     replied 405 (JsonBody (JObject [("error", JString "Method not allowed")])) st).
Proof.
  intros Ho Hp. run_js.
  apply String.eqb_neq in Ho, Hp. rewrite Ho, Hp. reflexivity.
Qed.

Lemma handler_falsy_token req st :
  method req = "POST" ->
  js_truthy (process_env st !! "GITHUB_TOKEN") = false ->
  handler req st =
    (Normal tt,
     replied 500
       (JsonBody (JObject [("error", JString "GitHub token not configured")])) st).
Proof. intros Hm Ht. run_js. rewrite Hm. step_js. rewrite Ht. reflexivity. Qed.

Section Dispatch.

Variables (req : IncomingMessage) (st : State).

Local Abbreviation token := (process_env st !! "GITHUB_TOKEN").
Local Abbreviation sent := (calls st ++ [dispatch_call token])%list.

Hypothesis Hpost : method req = "POST".
Hypothesis Htoken : js_truthy token = true.

Lemma handler_upstream_204 resp :
  network st sent = Normal resp ->
  status resp = 204 ->
  handler req st =
    (Normal tt,
     replied 200
       (JsonBody (JObject [("success", JBool true);
                           ("message", JString "Dashboard update triggered!")]))
       (with_calls sent st)).
Proof.
  intros Hn Hs. run_js. rewrite Hpost. step_js.
  rewrite Htoken. step_js. fold (dispatch_call token). rewrite Hn, Hs. reflexivity.
Qed.

Lemma handler_upstream_other resp t :
  network st sent = Normal resp ->
  status resp <> 204 ->
  text resp = Normal t ->
  handler req st =
    (Normal tt,
     replied (status resp)
       (JsonBody (JObject [("error", JString ("GitHub API error: " ++ t))]))
       (with_calls sent st)).
Proof.
  intros Hn Hs Ht. run_js. rewrite Hpost. step_js.
  rewrite Htoken. step_js. fold (dispatch_call token). rewrite Hn.
  apply Z.eqb_neq in Hs. rewrite Hs, Ht. reflexivity.
Qed.

Lemma handler_upstream_unreadable resp e :
  network st sent = Normal resp ->
  status resp <> 204 ->
  text resp = Throw e ->
  handler req st =
    (Normal tt,
     replied 500 (JsonBody (JObject [("error", JString (message e))]))
       (with_calls sent st)).
Proof.
  intros Hn Hs Ht. run_js. rewrite Hpost. step_js.
  rewrite Htoken. step_js. fold (dispatch_call token). rewrite Hn.
  apply Z.eqb_neq in Hs. rewrite Hs, Ht. reflexivity.
Qed.

Lemma handler_fetch_rejected e :
  network st sent = Throw e ->
  handler req st =
    (Normal tt,
     replied 500 (JsonBody (JObject [("error", JString (message e))]))
       (with_calls sent st)).
Proof.
  intros Hn. run_js. rewrite Hpost. step_js.
  rewrite Htoken. step_js. fold (dispatch_call token). rewrite Hn. reflexivity.
Qed.

End Dispatch.

Lemma with_calls_same st : with_calls (calls st ++ []) st = st.
Proof. destruct st. unfold with_calls. cbn. by rewrite app_nil_r. Qed.

(** Every path through the handler ends in a reply and completes
    normally. *)
Lemma handler_replies req st :
  exists code p,
    handler req st =
      (Normal tt, replied code p (with_calls (calls st ++ dispatched req st) st)).
Proof.
  unfold dispatched.
  destruct (String.eqb_spec (method req) "OPTIONS") as [Ho | Ho].
  { rewrite Ho. cbn [String.eqb Ascii.eqb Bool.eqb andb]. rewrite with_calls_same.
    eexists _, _. by apply handler_options. }
  destruct (String.eqb_spec (method req) "POST") as [Hp | Hp]; cbn [andb].
  2:{ rewrite with_calls_same. eexists _, _. by apply handler_other_method. }
  destruct (js_truthy (process_env st !! "GITHUB_TOKEN")) eqn:Ht.
  2:{ rewrite with_calls_same. eexists _, _. by apply handler_falsy_token. }
  destruct (network st (calls st ++ [dispatch_call (process_env st !! "GITHUB_TOKEN")]))
    as [resp | e] eqn:Hn.
  2:{ eexists _, _. by eapply handler_fetch_rejected. }
  destruct (Z.eq_dec (status resp) 204) as [Hs | Hs].
  { eexists _, _. by eapply handler_upstream_204. }
  destruct (text resp) as [t | e] eqn:Hx.
  - eexists _, _. by eapply handler_upstream_other.
  - eexists _, _. by eapply handler_upstream_unreadable.
Qed.

Lemma handler_never_throws req st : outcome (handler req) st = Normal tt.
Proof.
  destruct (handler_replies req st) as (code & p & E).
  unfold outcome. by rewrite E.
Qed.

Lemma handler_calls req st :
  calls (exec (handler req) st) = (calls st ++ dispatched req st)%list.
Proof.
  destruct (handler_replies req st) as (code & p & E).
  unfold exec. by rewrite E.
Qed.

Lemma handler_env req st :
  process_env (exec (handler req) st) = process_env st
  /\ network (exec (handler req) st) = network st.
Proof.
  destruct (handler_replies req st) as (code & p & E).
  unfold exec. by rewrite E.
Qed.

Lemma cors_lookup (h : gmap string string) :
  cors h !! "Access-Control-Allow-Origin" = Some "*"
  /\ cors h !! "Access-Control-Allow-Methods" = Some "POST, OPTIONS"
  /\ cors h !! "Access-Control-Allow-Headers" = Some "Content-Type".
Proof. unfold cors. repeat split; by simplify_map_eq. Qed.

Lemma nonempty_truthy (t : string) : t <> "" -> js_truthy (Some t) = true.
Proof. intros H. cbn. by apply String.eqb_neq in H as ->. Qed.

(** ** The upstream outcome *)

(** C1. A POST with a non-empty token whose dispatch call is answered
    with status 204 gets status 200 and the body
    [{success: true, message: "Dashboard update triggered!"}]. *)
Theorem post_upstream_204 req st T resp :
  method req = "POST" ->
  process_env st !! "GITHUB_TOKEN" = Some T ->
  T <> "" ->
  network st (calls st ++ [dispatch_call (Some T)])%list = Normal resp ->
  status resp = 204 ->
  outcome (handler req) st = Normal tt
  /\ statusCode (res (exec (handler req) st)) = 200
  /\ body (res (exec (handler req) st)) =
       Some (JsonBody (JObject [("success", JBool true);
                                ("message", JString "Dashboard update triggered!")])).
Proof.
  intros Hm Ht Hne Hn Hs. split; [apply handler_never_throws |].
  unfold exec. rewrite <- Ht in Hn.
  erewrite handler_upstream_204; eauto.
  rewrite Ht. by apply nonempty_truthy.
Qed.

Lemma post_upstream_204_witness :
  outcome (handler (request "POST")) st_accepting = Normal tt
  /\ statusCode (res (exec (handler (request "POST")) st_accepting)) = 200
  /\ body (res (exec (handler (request "POST")) st_accepting)) =
       Some (JsonBody (JObject [("success", JBool true);
                                ("message", JString "Dashboard update triggered!")])).
Proof.
  apply (post_upstream_204 (request "POST") st_accepting "ghp_secret"
           {| status := 204; text := Normal "" |});
    [reflexivity | reflexivity | discriminate | reflexivity | reflexivity].
Defined.

(** C2. A POST with a non-empty token whose dispatch call is answered
    with a status [S] other than 204 and body text [t] gets status [S]
    and the body [{error: "GitHub API error: " + t}]. *)
Theorem post_upstream_error req st T resp t :
  method req = "POST" ->
  process_env st !! "GITHUB_TOKEN" = Some T ->
  T <> "" ->
  network st (calls st ++ [dispatch_call (Some T)])%list = Normal resp ->
  status resp <> 204 ->
  text resp = Normal t ->
  outcome (handler req) st = Normal tt
  /\ statusCode (res (exec (handler req) st)) = status resp
  /\ body (res (exec (handler req) st)) =
       Some (JsonBody (JObject [("error", JString ("GitHub API error: " ++ t))])).
Proof.
  intros Hm Ht Hne Hn Hs Hx. split; [apply handler_never_throws |].
  unfold exec. rewrite <- Ht in Hn.
  erewrite handler_upstream_other; eauto.
  rewrite Ht. by apply nonempty_truthy.
Qed.

Lemma post_upstream_error_witness :
  outcome (handler (request "POST")) st_bad_ref = Normal tt
  /\ statusCode (res (exec (handler (request "POST")) st_bad_ref)) = 422
  /\ body (res (exec (handler (request "POST")) st_bad_ref)) =
       Some (JsonBody (JObject [("error", JString "GitHub API error: bad ref")])).
Proof.
  apply (post_upstream_error (request "POST") st_bad_ref "ghp_secret"
           {| status := 422; text := Normal "bad ref" |} "bad ref");
    [reflexivity | reflexivity | discriminate | reflexivity | discriminate
    | reflexivity].
Defined.

(** C3. A POST with a non-empty token whose dispatch call is rejected
    with an error of message [msg] gets status 500 and the body
    [{error: msg}], and the handler completes normally: the error does
    not leave it. *)
Theorem post_transport_failure req st T e :
  method req = "POST" ->
  process_env st !! "GITHUB_TOKEN" = Some T ->
  T <> "" ->
  network st (calls st ++ [dispatch_call (Some T)])%list = Throw e ->
  outcome (handler req) st = Normal tt
  /\ statusCode (res (exec (handler req) st)) = 500
  /\ body (res (exec (handler req) st)) =
       Some (JsonBody (JObject [("error", JString (message e))])).
Proof.
  intros Hm Ht Hne Hn. split; [apply handler_never_throws |].
  unfold exec. rewrite <- Ht in Hn.
  erewrite handler_fetch_rejected; eauto.
  rewrite Ht. by apply nonempty_truthy.
Qed.

Lemma post_transport_failure_witness :
  outcome (handler (request "POST")) st_econnreset = Normal tt
  /\ statusCode (res (exec (handler (request "POST")) st_econnreset)) = 500
  /\ body (res (exec (handler (request "POST")) st_econnreset)) =
       Some (JsonBody (JObject [("error", JString "ECONNRESET")])).
Proof.
  apply (post_transport_failure (request "POST") st_econnreset "ghp_secret"
           {| message := "ECONNRESET" |});
    [reflexivity | reflexivity | discriminate | reflexivity].
Defined.

(** ** The guards *)

(** C4. A POST when [GITHUB_TOKEN] is not set gets status 500 and the
    body [{error: "GitHub token not configured"}], and no call goes
    out. *)
Theorem post_token_absent req st :
  method req = "POST" ->
  process_env st !! "GITHUB_TOKEN" = None ->
  outcome (handler req) st = Normal tt
  /\ statusCode (res (exec (handler req) st)) = 500
  /\ body (res (exec (handler req) st)) =
       Some (JsonBody (JObject [("error", JString "GitHub token not configured")]))
  /\ calls (exec (handler req) st) = calls st.
Proof.
  intros Hm Ht. split; [apply handler_never_throws |].
  unfold exec. rewrite handler_falsy_token; [| done | by rewrite Ht]. done.
Qed.

Lemma post_token_absent_witness :
  outcome (handler (request "POST")) st_unset = Normal tt
  /\ statusCode (res (exec (handler (request "POST")) st_unset)) = 500
  /\ body (res (exec (handler (request "POST")) st_unset)) =
       Some (JsonBody (JObject [("error", JString "GitHub token not configured")]))
  /\ calls (exec (handler (request "POST")) st_unset) = [].
Proof.
  apply (post_token_absent (request "POST") st_unset); reflexivity.
Defined.

(** C10. A POST when [GITHUB_TOKEN] is the empty string is answered as
    when it is not set: status 500, the body
    [{error: "GitHub token not configured"}], and no call goes out. *)
Theorem post_token_empty req st :
  method req = "POST" ->
  process_env st !! "GITHUB_TOKEN" = Some "" ->
  outcome (handler req) st = Normal tt
  /\ statusCode (res (exec (handler req) st)) = 500
  /\ body (res (exec (handler req) st)) =
       Some (JsonBody (JObject [("error", JString "GitHub token not configured")]))
  /\ calls (exec (handler req) st) = calls st.
Proof.
  intros Hm Ht. split; [apply handler_never_throws |].
  unfold exec. rewrite handler_falsy_token; [| done | by rewrite Ht]. done.
Qed.

Lemma post_token_empty_witness :
  outcome (handler (request "POST")) st_empty_token = Normal tt
  /\ statusCode (res (exec (handler (request "POST")) st_empty_token)) = 500
  /\ body (res (exec (handler (request "POST")) st_empty_token)) =
       Some (JsonBody (JObject [("error", JString "GitHub token not configured")]))
  /\ calls (exec (handler (request "POST")) st_empty_token) = [].
Proof.
  apply (post_token_empty (request "POST") st_empty_token); reflexivity.
Defined.

(** C5. A request whose method is neither OPTIONS nor POST gets status
    405 and the body [{error: "Method not allowed"}]; no call goes out,
    and the reply is the same under any other environment and network. *)
Theorem other_method_rejected req st :
  method req <> "OPTIONS" ->
  method req <> "POST" ->
  outcome (handler req) st = Normal tt
  /\ statusCode (res (exec (handler req) st)) = 405
  /\ body (res (exec (handler req) st)) =
       Some (JsonBody (JObject [("error", JString "Method not allowed")]))
  /\ calls (exec (handler req) st) = calls st
  /\ forall env' net',
       res (exec (handler req)
              {| process_env := env'; network := net';
                 calls := calls st; res := res st |})
       = res (exec (handler req) st).
Proof.
  intros Ho Hp. split; [apply handler_never_throws |].
  unfold exec. rewrite handler_other_method by done.
  repeat split. intros env' net'. by rewrite handler_other_method.
Qed.

Lemma other_method_rejected_witness :
  statusCode (res (exec (handler (request "GET")) st_accepting)) = 405
  /\ body (res (exec (handler (request "GET")) st_accepting)) =
       Some (JsonBody (JObject [("error", JString "Method not allowed")]))
  /\ calls (exec (handler (request "GET")) st_accepting) = [].
Proof.
  pose proof (other_method_rejected (request "GET") st_accepting
                ltac:(discriminate) ltac:(discriminate)) as H.
  repeat split; apply H.
Defined.

(** C6. An OPTIONS request gets status 200 and an empty body at once,
    with the three cross-origin headers; no call goes out, whatever the
    environment holds. *)
Theorem options_preflight req st :
  method req = "OPTIONS" ->
  outcome (handler req) st = Normal tt
  /\ statusCode (res (exec (handler req) st)) = 200
  /\ body (res (exec (handler req) st)) = Some EmptyBody
  /\ headers (res (exec (handler req) st)) !! "Access-Control-Allow-Origin"
       = Some "*"
  /\ headers (res (exec (handler req) st)) !! "Access-Control-Allow-Methods"
       = Some "POST, OPTIONS"
  /\ headers (res (exec (handler req) st)) !! "Access-Control-Allow-Headers"
       = Some "Content-Type"
  /\ calls (exec (handler req) st) = calls st
  /\ forall env' net',
       res (exec (handler req)
              {| process_env := env'; network := net';
                 calls := calls st; res := res st |})
       = res (exec (handler req) st).
Proof.
  intros Hm. split; [apply handler_never_throws |].
  unfold exec. rewrite handler_options by done.
  cbn [snd replied with_res res statusCode body headers calls].
  destruct (cors_lookup (headers (res st))) as (H1 & H2 & H3).
  repeat split; try done.
  intros env' net'. by rewrite handler_options.
Qed.

Lemma options_preflight_witness :
  statusCode (res (exec (handler (request "OPTIONS")) st_unset)) = 200
  /\ body (res (exec (handler (request "OPTIONS")) st_unset)) = Some EmptyBody
  /\ calls (exec (handler (request "OPTIONS")) st_unset) = [].
Proof.
  pose proof (options_preflight (request "OPTIONS") st_unset eq_refl) as H.
  repeat split; apply H.
Defined.

(** C7. Whatever the request and the state, the handler sends a response
    and that response carries [Access-Control-Allow-Origin: *],
    [Access-Control-Allow-Methods: POST, OPTIONS] and
    [Access-Control-Allow-Headers: Content-Type]. *)
Theorem cors_headers_always req st :
  is_Some (body (res (exec (handler req) st)))
  /\ headers (res (exec (handler req) st)) !! "Access-Control-Allow-Origin"
       = Some "*"
  /\ headers (res (exec (handler req) st)) !! "Access-Control-Allow-Methods"
       = Some "POST, OPTIONS"
  /\ headers (res (exec (handler req) st)) !! "Access-Control-Allow-Headers"
       = Some "Content-Type".
Proof.
  destruct (handler_replies req st) as (code & p & E).
  unfold exec. rewrite E.
  cbn [snd replied with_res with_calls res statusCode body headers calls].
  split; [by eexists | apply cors_lookup].
Qed.

(** ** The outbound call *)

(** C8. A POST with a non-empty token [T] adds exactly one call, and that
    call is a function of [T] alone: a POST to the dispatch endpoint of
    [update-dashboard.yml] in [mclendaniel/chess-dashboard], with
    [Authorization: Bearer T], [Accept: application/vnd.github.v3+json]
    and the body [{"ref":"main"}]. *)
Theorem post_dispatch_request req st T :
  method req = "POST" ->
  process_env st !! "GITHUB_TOKEN" = Some T ->
  T <> "" ->
  calls (exec (handler req) st) = (calls st ++ [dispatch_call (Some T)])%list
  /\ call_url (dispatch_call (Some T)) =
       "https://api.github.com/repos/mclendaniel/chess-dashboard/actions/workflows/update-dashboard.yml/dispatches"
  /\ init_method (call_init (dispatch_call (Some T))) = "POST"
  /\ init_headers (call_init (dispatch_call (Some T))) !! "Authorization"
       = Some ("Bearer " ++ T)
  /\ init_headers (call_init (dispatch_call (Some T))) !! "Accept"
       = Some "application/vnd.github.v3+json"
  /\ init_body (call_init (dispatch_call (Some T)))
       = "{" ++ in_quotes "ref" ++ ":" ++ in_quotes "main" ++ "}".
Proof.
  intros Hm Ht Hne. split.
  - rewrite handler_calls. unfold dispatched.
    rewrite Hm, Ht, nonempty_truthy by done. reflexivity.
  - cbn [dispatch_call call_url call_init dispatch_init init_method
         init_headers init_body js_to_string].
    repeat split; by simplify_map_eq.
Qed.

Lemma post_dispatch_request_witness :
  calls (exec (handler (request "POST")) st_accepting)
    = [dispatch_call (Some "ghp_secret")]
  /\ init_headers (call_init (dispatch_call (Some "ghp_secret"))) !! "Authorization"
       = Some "Bearer ghp_secret".
Proof.
  pose proof (post_dispatch_request (request "POST") st_accepting
                "ghp_secret" eq_refl eq_refl ltac:(discriminate)) as H.
  split; apply H.
Defined.

(** C9, as stated, fails: a GET is answered without any call going out,
    so not every invocation issues one. *)
Lemma one_call_per_invocation_fails :
  calls (exec (handler (request "GET")) st_accepting) = []
  /\ ~ (forall req st,
          length (calls (exec (handler req) st)) = S (length (calls st))).
Proof.
  split; [reflexivity |].
  intros H.
  specialize (H (request "GET") st_accepting).
  discriminate H.
Qed.

(** C9, amended. An invocation adds one call, the dispatch, when the method
    is POST and the token is non-empty, and none otherwise, however the
    network answers; two POST invocations in a row under a non-empty token
    add the dispatch twice. *)
Theorem calls_per_invocation :
  (forall req st,
     calls (exec (handler req) st) =
       (calls st ++
        if String.eqb (method req) "POST"
           && js_truthy (process_env st !! "GITHUB_TOKEN")
        then [dispatch_call (process_env st !! "GITHUB_TOKEN")]
        else [])%list)
  /\ (forall req1 req2 res2 st T,
        method req1 = "POST" ->
        method req2 = "POST" ->
        process_env st !! "GITHUB_TOKEN" = Some T ->
        T <> "" ->
        calls (exec (handler req2) (with_res res2 (exec (handler req1) st))) =
          (calls st ++ [dispatch_call (Some T); dispatch_call (Some T)])%list).
Proof.
  split; [apply handler_calls |].
  intros req1 req2 res2 st T H1 H2 Ht Hne.
  rewrite handler_calls. unfold dispatched, with_res.
  cbn [process_env calls].
  destruct (handler_env req1 st) as [-> _].
  rewrite handler_calls. unfold dispatched.
  rewrite H1, H2, Ht, nonempty_truthy by done.
  cbn [String.eqb Ascii.eqb Bool.eqb andb]. by rewrite <- app_assoc.
Qed.

Lemma calls_per_invocation_witness :
  calls (exec (handler (request "POST"))
           (with_res fresh_res (exec (handler (request "POST")) st_accepting)))
    = [dispatch_call (Some "ghp_secret"); dispatch_call (Some "ghp_secret")].
Proof.
  apply (proj2 calls_per_invocation (request "POST") (request "POST") fresh_res
           st_accepting "ghp_secret");
    [reflexivity | reflexivity | reflexivity | discriminate].
Defined.

(** ** The paths of the handler *)

Lemma truthy_nonempty (v : option string) :
  js_truthy v = true -> exists T, v = Some T /\ T <> "".
Proof.
  destruct v as [T |]; [| discriminate]. cbn. intros H.
  exists T. split; [done |]. intros ->. discriminate.
Qed.

(** The handler takes one of the paths of [reply], and ends in the state
    that path describes. *)
Lemma handler_reply req st :
  exists code p cs,
    reply req st code p cs
    /\ handler req st =
         (Normal tt, replied code p (with_calls (calls st ++ cs) st)).
Proof.
  destruct (String.eqb_spec (method req) "OPTIONS") as [Ho | Ho].
  { eexists _, _, _. split; [by apply reply_preflight |].
    rewrite with_calls_same. by apply handler_options. }
  destruct (String.eqb_spec (method req) "POST") as [Hp | Hp].
  2:{ eexists _, _, _. split; [by apply reply_method |].
      rewrite with_calls_same. by apply handler_other_method. }
  destruct (js_truthy (process_env st !! "GITHUB_TOKEN")) eqn:Ht.
  2:{ eexists _, _, _. split; [by apply reply_config |].
      rewrite with_calls_same. by apply handler_falsy_token. }
  destruct (truthy_nonempty _ Ht) as (T & HT & Hne).
  destruct (network st (calls st ++ [dispatch_call (Some T)])) as [resp | e] eqn:Hn.
  2:{ eexists _, _, _. split; [by eapply reply_failed |].
      rewrite <- HT in *. by eapply handler_fetch_rejected. }
  destruct (Z.eq_dec (status resp) 204) as [Hs | Hs].
  { eexists _, _, _. split; [by eapply reply_accepted |].
    rewrite <- HT in *. by eapply handler_upstream_204. }
  destruct (text resp) as [t | e] eqn:Hx.
  - eexists _, _, _. split; [by eapply reply_refused |].
    rewrite <- HT in *. by eapply handler_upstream_other.
  - eexists _, _, _. split; [by eapply reply_unreadable |].
    rewrite <- HT in *. by eapply handler_upstream_unreadable.
Qed.

Lemma handler_reply_fields req st :
  exists code p cs,
    reply req st code p cs
    /\ statusCode (res (exec (handler req) st)) = code
    /\ body (res (exec (handler req) st)) = Some p
    /\ calls (exec (handler req) st) = (calls st ++ cs)%list.
Proof.
  destruct (handler_reply req st) as (code & p & cs & R & E).
  exists code, p, cs. unfold exec. by rewrite E.
Qed.

Lemma serve_env jobs : forall st,
  process_env (serve jobs st) = process_env st.
Proof.
  induction jobs as [| [req r] rest IH]; intros st; [done |].
  cbn [serve]. rewrite IH.
  by destruct (handler_env req (with_res r st)) as [-> _].
Qed.

(** ** Beyond the listed claims *)

(** X1. A POST with a non-empty token whose dispatch call is answered
    with a status other than 204, but whose body read [response.text()]
    rejects with message [msg], gets status 500 and the body
    [{error: msg}] from the [catch] block; the call has gone out. *)
Theorem post_body_unreadable req st T resp e :
  method req = "POST" ->
  process_env st !! "GITHUB_TOKEN" = Some T ->
  T <> "" ->
  network st (calls st ++ [dispatch_call (Some T)])%list = Normal resp ->
  status resp <> 204 ->
  text resp = Throw e ->
  outcome (handler req) st = Normal tt
  /\ statusCode (res (exec (handler req) st)) = 500
  /\ body (res (exec (handler req) st)) =
       Some (JsonBody (JObject [("error", JString (message e))]))
  /\ calls (exec (handler req) st) = (calls st ++ [dispatch_call (Some T)])%list.
Proof.
  intros Hm Ht Hne Hn Hs Hx. split; [apply handler_never_throws |].
  unfold exec. rewrite <- Ht in Hn.
  erewrite handler_upstream_unreadable; eauto.
  - by rewrite Ht.
  - rewrite Ht. by apply nonempty_truthy.
Qed.

Lemma post_body_unreadable_witness :
  outcome (handler (request "POST")) st_unreadable = Normal tt
  /\ statusCode (res (exec (handler (request "POST")) st_unreadable)) = 500
  /\ body (res (exec (handler (request "POST")) st_unreadable)) =
       Some (JsonBody (JObject [("error", JString "terminated")]))
  /\ calls (exec (handler (request "POST")) st_unreadable)
     = [dispatch_call (Some "ghp_secret")].
Proof.
  apply (post_body_unreadable (request "POST") st_unreadable "ghp_secret"
           {| status := 502; text := Throw {| message := "terminated" |} |}
           {| message := "terminated" |});
    [reflexivity | reflexivity | discriminate | reflexivity | discriminate
    | reflexivity].
Defined.

(** X2. No error leaves the handler: for every request, environment and
    network, also one whose [fetch] or whose [text()] rejects, the
    handler completes normally. *)
Theorem no_error_escapes req st : outcome (handler req) st = Normal tt.
Proof.
  destruct (handler_replies req st) as (code & p & E).
  unfold outcome. by rewrite E.
Qed.

(** X3. The success body is sent only after a dispatch that the upstream
    answered with 204: if the reply's body is
    [{success: true, message: "Dashboard update triggered!"}], then the
    method was POST, the token was non-empty, the dispatch call went out
    and was answered with status 204, and the reply's status is 200. *)
Theorem success_only_after_204 req st :
  body (res (exec (handler req) st)) =
    Some (JsonBody (JObject [("success", JBool true);
                             ("message", JString "Dashboard update triggered!")])) ->
  method req = "POST"
  /\ statusCode (res (exec (handler req) st)) = 200
  /\ exists T resp,
       process_env st !! "GITHUB_TOKEN" = Some T /\ T <> ""
       /\ calls (exec (handler req) st) = (calls st ++ [dispatch_call (Some T)])%list
       /\ network st (calls st ++ [dispatch_call (Some T)])%list = Normal resp
       /\ status resp = 204.
Proof.
  destruct (handler_reply_fields req st) as (code & p & cs & R & Hc & Hb & Hl).
  rewrite Hb, Hc, Hl. intros [= ->].
  inversion R; subst; try discriminate.
  repeat split; try done. by exists T, resp.
Qed.

Lemma success_only_after_204_witness :
  method (request "POST") = "POST"
  /\ statusCode (res (exec (handler (request "POST")) st_accepting)) = 200
  /\ exists T resp,
       process_env st_accepting !! "GITHUB_TOKEN" = Some T /\ T <> ""
       /\ calls (exec (handler (request "POST")) st_accepting)
          = (calls st_accepting ++ [dispatch_call (Some T)])%list
       /\ network st_accepting (calls st_accepting ++ [dispatch_call (Some T)])%list
          = Normal resp
       /\ status resp = 204.
Proof.
  apply (success_only_after_204 (request "POST") st_accepting). reflexivity.
Defined.

(** X4. The reply has an empty body exactly when the method is OPTIONS:
    every other path answers with a JSON object. *)
Theorem empty_body_iff_options req st :
  body (res (exec (handler req) st)) = Some EmptyBody <-> method req = "OPTIONS".
Proof.
  destruct (handler_reply_fields req st) as (code & p & cs & R & Hc & Hb & Hl).
  rewrite Hb. split.
  - intros [= ->]. by inversion R.
  - intros Hm. inversion R; subst; congruence.
Qed.



(** X6. The reply's status is never 204: it is 200, 405 or 500, or it is
    the status of an upstream answer other than 204, forwarded from a
    dispatch made under a non-empty token. *)
Theorem reply_status_cases req st :
  statusCode (res (exec (handler req) st)) <> 204
  /\ (statusCode (res (exec (handler req) st)) = 200
      \/ statusCode (res (exec (handler req) st)) = 405
      \/ statusCode (res (exec (handler req) st)) = 500
      \/ exists T resp,
           process_env st !! "GITHUB_TOKEN" = Some T /\ T <> ""
           /\ network st (calls st ++ [dispatch_call (Some T)])%list = Normal resp
           /\ statusCode (res (exec (handler req) st)) = status resp).
Proof.
  destruct (handler_reply_fields req st) as (code & p & cs & R & Hc & Hb & Hl).
  rewrite Hc.
  inversion R; subst; (split; [done |]); auto.
  right; right; right. by exists T, resp.
Qed.

(** X7. The handler reads no variable of the environment but
    [GITHUB_TOKEN]: under another environment with the same value, or
    the same absence, of [GITHUB_TOKEN] it completes the same way, sends
    the same response and leaves the same log of calls. *)
Theorem only_token_is_read req st env' :
  env' !! "GITHUB_TOKEN" = process_env st !! "GITHUB_TOKEN" ->
  let st' := {| process_env := env'; network := network st;
                calls := calls st; res := res st |} in
  outcome (handler req) st' = outcome (handler req) st
  /\ res (exec (handler req) st') = res (exec (handler req) st)
  /\ calls (exec (handler req) st') = calls (exec (handler req) st).
Proof.
  intros He st'. unfold outcome, exec, st'. run_js.
  destruct (String.eqb (method req) "OPTIONS"); [done |].
  destruct (String.eqb (method req) "POST"); [| done]. step_js.
  rewrite He.
  destruct (js_truthy (process_env st !! "GITHUB_TOKEN")); [| done]. step_js.
  destruct (network st _) as [resp | e]; [| done].
  destruct (status resp =? 204); [done |].
  by destruct (text resp).
Qed.

Lemma only_token_is_read_witness :
  outcome (handler (request "POST"))
    {| process_env := <["HOME" := "/root"]> (with_token "ghp_secret");
       network := network st_bad_ref; calls := calls st_bad_ref;
       res := res st_bad_ref |}
    = outcome (handler (request "POST")) st_bad_ref
  /\ res (exec (handler (request "POST"))
            {| process_env := <["HOME" := "/root"]> (with_token "ghp_secret");
               network := network st_bad_ref; calls := calls st_bad_ref;
               res := res st_bad_ref |})
     = res (exec (handler (request "POST")) st_bad_ref)
  /\ calls (exec (handler (request "POST"))
              {| process_env := <["HOME" := "/root"]> (with_token "ghp_secret");
                 network := network st_bad_ref; calls := calls st_bad_ref;
                 res := res st_bad_ref |})
     = calls (exec (handler (request "POST")) st_bad_ref).
Proof.
  apply (only_token_is_read (request "POST") st_bad_ref
           (<["HOME" := "/root"]> (with_token "ghp_secret"))).
  reflexivity.
Defined.

(** X8. Invocations in a row never coalesce and never retry: after any
    sequence of requests, each served on its own response object, the
    log has grown by one dispatch per POST when the token is non-empty,
    whatever the upstream answered in between, and by nothing when the
    token is unset or empty. *)
Theorem serve_dispatches jobs st :
  calls (serve jobs st) =
    (calls st ++
     repeat (dispatch_call (process_env st !! "GITHUB_TOKEN"))
       (if js_truthy (process_env st !! "GITHUB_TOKEN") then posts jobs else 0%nat))%list.
Proof.
  revert st. induction jobs as [| [req r] rest IH]; intros st.
  { cbn [serve posts List.filter length]. destruct (js_truthy _); cbn [repeat];
      by rewrite app_nil_r. }
  cbn [serve]. rewrite IH.
  destruct (handler_env req (with_res r st)) as [-> _].
  rewrite handler_calls. unfold dispatched, posts.
  cbn [with_res process_env calls List.filter fst].
  destruct (js_truthy (process_env st !! "GITHUB_TOKEN")).
  - destruct (String.eqb (method req) "POST"); cbn [andb length repeat].
    + by rewrite <- app_assoc.
    + by rewrite app_nil_r.
  - rewrite andb_false_r. cbn [repeat]. by rewrite !app_nil_r.
Qed.
